(** * Passbolt browser extension: login, server-key verification and
      secret decryption controllers

    A shallow embedding of [AuthController] (verify, login and its helpers)
    and of [SecretDecryptController] (decrypt, _getSecret), with the
    properties of their reply protocol.

    The controllers are asynchronous JavaScript methods that call
    collaborators (GpgAuth, Crypto, User, the progress dialog, ...) and emit
    replies on worker ports.  They are embedded in a small monad that threads
    the observable state (the log of collaborator calls and port messages,
    the [User] singleton and the controller's own [_tabId] field) and that
    carries JavaScript exceptions, so that [try]/[catch], [await] and a call
    that is not awaited can be written as the source writes them. *)

From Stdlib Require Import String Ascii List ZArith Bool Lia.
Import ListNotations.
Local Open Scope string_scope.

(** ** JavaScript values

    [login] receives [remember] and [redirect] from a page script: the code
    tests them with JavaScript's truthiness, [typeof], [instanceof String]
    and [charAt], so the arguments are modelled as JavaScript values. *)

Inductive jsval : Type :=
| JUndefined
| JNull
| JBool (b : bool)
| JNumber (n : Z)
| JNaN
| JString (s : string)
| JStringObject (s : string)   (* new String(s) *)
| JObject.                     (* any other object *)

(** [ToBoolean]: what [if (v)] and [!v] test. *)
Definition ToBoolean (v : jsval) : bool :=
  match v with
  | JUndefined | JNull | JNaN => false
  | JBool b => b
  | JNumber n => negb (n =? 0)%Z
  | JString s => negb (s =? "")
  | JStringObject _ | JObject => true
  end.

(** [typeof v === 'string'] *)
Definition typeof_string (v : jsval) : bool :=
  match v with JString _ => true | _ => false end.

(** [v instanceof String] *)
Definition instanceof_String (v : jsval) : bool :=
  match v with JStringObject _ => true | _ => false end.

(** The characters of a string value or String object.  The source reads
    them ([charAt], [+]) only behind the string test of [handleLoginSuccess];
    other values are given no characters. *)
Definition string_value (v : jsval) : string :=
  match v with
  | JString s | JStringObject s => s
  | _ => ""
  end.

(** [s.charAt(0)]: the first character as a string, the empty string when
    there is none. *)
Definition charAt0 (s : string) : string :=
  match s with
  | EmptyString => ""
  | String c _ => String c ""
  end.

(** ** Errors, replies and the event log *)

Inductive error_class : Type :=
| PlainError
| TypeError
| ServerKeyChangedError
| KeyIsExpiredError
| NamedError (name : string).

Record jserror : Type := mkError {
  err_class : error_class;
  err_message : string
}.

Inductive status : Type := SUCCESS | ERROR.

Inductive payload : Type :=
| NoPayload
| Message (s : string)
| EmitableError (e : jserror).   (* this.worker.port.getEmitableError(e) *)

Definition privateKey : Type := string.

Record secret : Type := mkSecret { data : string }.
Record resource : Type := mkResource { secrets : list secret }.

(** The collaborator operations the controllers invoke. *)
Inductive call : Type :=
| retrieveAndStoreCsrfToken
| getAndDecryptPrivateKey (passphrase : string)
| auth_login (key : privateKey)
| storeMasterPasswordTemporarily (passphrase : string) (seconds : Z)
| startCheckAuthStatusLoop
| settings_sync
| settings_setDefaults
| PassboltApp_init
| new_URL (s : string)
| auth_verify
| serverKeyChanged
| isServerKeyExpired
| findByResourceId (resourceId : string)
| LegacyResourceService_findOne (resourceId : string)
| passphraseController_get
| progressController_open (title : string) (goals : Z) (label : string)
| progressController_update (step : Z) (label : string)
| progressController_close
| decryptWithKey (ciphertext : string) (key : privateKey)
| console_error (e : jserror).

Inductive event : Type :=
| Called (c : call) (returned : bool)
    (* a collaborator was invoked; [returned] is false when it threw or its
       promise rejected *)
| PortEmit (requestId : string) (st : status) (p : payload)
    (* this.worker.port.emit(this.requestId, st, p) *)
| AuthWorkerEmit (tabId : option Z) (name : string) (args : list string).
    (* Worker.get('Auth', tabId).port.emit(name, args...) *)

(** ** The User singleton

    Modelled from the spec: the [User] model ([User.getInstance()]) is not
    part of the sources at hand; its state is the stored anti-forgery token,
    the optionally retained passphrase with its lifetime in seconds, and the
    account settings, which are either unset, synchronised from the server
    or the local defaults. *)

Inductive settings_state : Type := SettingsUnset | SettingsSynced | SettingsDefaults.

Record User : Type := mkUser {
  csrfToken : bool;
  masterPassword : option (string * Z);
  settings : settings_state
}.

Definition fresh_user : User :=
  {| csrfToken := false; masterPassword := None; settings := SettingsUnset |}.

(** The worker a controller answers to.  [pageMod] is absent for workers
    that are not attached by a page mod; otherwise it carries
    [pageMod.args.name]. *)
Record worker : Type := mkWorker {
  pageMod : option string;
  tab_id : Z
}.

Record state : Type := mkState {
  trace : list event;       (* oldest event first *)
  user : User;
  _tabId : option Z;        (* this._tabId, undefined until beforeLogin sets it *)
  suspended : option (nat * list event)
    (* an async function that was started and is suspended at an [await]:
       the number of suspension points of its caller that pass before it
       goes on, and what it logs from then on *)
}.

Definition initial (u : User) : state :=
  {| trace := []; user := u; _tabId := None; suspended := None |}.

(** ** The monad: state passing with exceptions *)

Inductive completion (A : Type) : Type :=
| Normal (a : A)
| Throw (e : jserror).
Arguments Normal {A} a.
Arguments Throw {A} e.

Definition returned {A} (c : completion A) : bool :=
  match c with Normal _ => true | Throw _ => false end.

Definition M (A : Type) : Type := state -> completion A * state.

Definition ret {A} (a : A) : M A := fun s => (Normal a, s).

Definition bind {A B} (m : M A) (k : A -> M B) : M B :=
  fun s =>
    match m s with
    | (Normal a, s') => k a s'
    | (Throw e, s') => (Throw e, s')
    end.

Definition throw {A} (e : jserror) : M A := fun s => (Throw e, s).

(** [try { body } catch (error) { handler }] *)
Definition try_catch {A} (body : M A) (handler : jserror -> M A) : M A :=
  fun s =>
    match body s with
    | (Normal a, s') => (Normal a, s')
    | (Throw e, s') => handler e s'
    end.

Declare Scope js_scope.
Delimit Scope js_scope with js.
Notation "x <- m ;; k" := (bind m (fun x => k))
  (at level 61, m at next level, right associativity) : js_scope.
Notation "m ;; k" := (bind m (fun _ => k))
  (at level 61, right associativity) : js_scope.
Local Open Scope js_scope.

Definition log (e : event) : M unit :=
  fun s => (Normal tt, {| trace := trace s ++ [e]; user := user s; _tabId := _tabId s;
                          suspended := suspended s |}).

Definition get_user : M User := fun s => (Normal (user s), s).

Definition set_user (u : User) : M unit :=
  fun s => (Normal tt, {| trace := trace s; user := u; _tabId := _tabId s;
                          suspended := suspended s |}).

Definition get_tabId : M (option Z) := fun s => (Normal (_tabId s), s).

Definition set_tabId (t : Z) : M unit :=
  fun s => (Normal tt, {| trace := trace s; user := user s; _tabId := Some t;
                          suspended := suspended s |}).

(** [await c(...)], or a synchronous call that may throw: the call is
    logged with the way it completed, and a rejection is rethrown at the
    [await]. *)
Definition await {A} (c : call) (outcome : completion A) : M A :=
  log (Called c (returned outcome)) ;; (fun s => (outcome, s)).

(** A synchronous collaborator call that returns nothing. *)
Definition invoke (c : call) : M unit := log (Called c true).

(** A call to an async function whose promise is dropped: the callee runs,
    and when it rejects nobody observes the rejection. *)
Definition not_awaited (m : M unit) : M unit :=
  fun s => (Normal tt, snd (m s)).

(** A call to an async function whose promise is kept in a variable.  The
    callee runs at once up to its first [await] ([started]) and is suspended
    there; the caller goes on.  The rest of the callee ([resumed]) runs
    later, while the caller is itself suspended at an [await]: after [delay]
    of the caller's suspension points have passed, when the caller awaits
    the promise, or after the caller has finished, whichever comes first.
    The callee reads the environment only, so what it will log and how its
    promise will settle are kept from the start; the promise is the value
    of the variable. *)
Definition start_promise {A} (delay : nat) (started : M unit) (resumed : M A)
  : M (completion A) :=
  started ;;
  (fun s =>
     let r := resumed {| trace := []; user := user s; _tabId := _tabId s;
                         suspended := None |} in
     (Normal (fst r),
      {| trace := trace s; user := user s; _tabId := _tabId s;
         suspended := Some (delay, trace (snd r)) |})).

(** The suspended function goes on now, if there is one. *)
Definition join : M unit :=
  fun s =>
    match suspended s with
    | Some (_, later) =>
        (Normal tt, {| trace := trace s ++ later; user := user s; _tabId := _tabId s;
                       suspended := None |})
    | None => (Normal tt, s)
    end.

(** A suspension point of the caller: the suspended function goes on here
    when its time has come, and is one point nearer to it otherwise. *)
Definition yield : M unit :=
  fun s =>
    match suspended s with
    | Some (O, _) => join s
    | Some (S n, later) =>
        (Normal tt, {| trace := trace s; user := user s; _tabId := _tabId s;
                       suspended := Some (n, later) |})
    | None => (Normal tt, s)
    end.

(** [await c(...)] in a function that has started another one: the call is
    logged, the caller is suspended, and the rejection is rethrown when the
    caller resumes. *)
Definition await_yielding {A} (c : call) (outcome : completion A) : M A :=
  log (Called c (returned outcome)) ;; yield ;; (fun s => (outcome, s)).

(** [await p] for a promise held in a variable: the caller resumes when
    the function that was started has finished. *)
Definition await_promise {A} (p : completion A) : M A :=
  join ;; (fun s => (p, s)).

(** The log of a call has also what the function it started does after the
    call itself has finished. *)
Definition and_what_it_started {A} (m : M A) : M A :=
  fun s => (fst (m s), snd (join (snd (m s)))).

(** ** The environment: localisation, configuration and what each
    collaborator call answers *)

Record Env : Type := mkEnv {
  l10n : string -> string;                    (* __ = require('../sdk/l10n').get *)
  trustedDomain : string;                     (* Config.read('user.settings.trustedDomain') *)
  URL_href : string -> option string;         (* new URL(s).href; None: TypeError *)
  csrf_result : completion unit;
  decryptPrivateKey_result : string -> completion privateKey;
  login_result : privateKey -> completion unit;
  startLoop_result : completion unit;
  sync_result : completion unit;
  init_result : completion unit;
  verify_result : completion unit;
  serverKeyChanged_result : completion bool;
  isServerKeyExpired_result : completion bool;
  findByResourceId_result : string -> completion secret;
  findOne_result : string -> completion resource;
  passphrase_result : completion string;
  open_result : completion unit;
  update1_result : completion unit;           (* progressController.update(worker, 1, ...) *)
  update2_result : completion unit;           (* progressController.update(worker, 2, ...) *)
  close_result : completion unit;             (* progressController.close in the try block *)
  close_catch_result : completion unit;       (* progressController.close in the catch block *)
  decryptWithKey_result : string -> privateKey -> completion string;
  lookup_delay : nat
    (* how many suspension points of decrypt pass before the secret lookup,
       suspended at the primary lookup, goes on *)
}.

(** ** AuthController *)

Record AuthController : Type := mkAuthController {
  auth_worker : worker;
  auth_requestId : string
}.

(** [this.worker.pageMod && this.worker.pageMod.args.name === "AuthForm"] *)
Definition isAuthForm (w : worker) : bool :=
  match pageMod w with
  | Some name => name =? "AuthForm"
  | None => false
  end.

Section Auth.
Variable E : Env.
Variable this : AuthController.

Definition verify : M unit :=
  try_catch
    (await auth_verify (verify_result E) ;;
     let msg := l10n E "The server key is verified. The server can use it to sign and decrypt content." in
     log (PortEmit (auth_requestId this) SUCCESS (Message msg)))
    (fun error =>
       changed <- await serverKeyChanged (serverKeyChanged_result E) ;;
       error <- (if changed : bool then
                   ret (mkError ServerKeyChangedError (l10n E "The server key has changed."))
                 else
                   expired <- await isServerKeyExpired (isServerKeyExpired_result E) ;;
                   if expired : bool then
                     ret (mkError KeyIsExpiredError (l10n E "The server key is expired."))
                   else ret error) ;;
       let error :=
         mkError (err_class error)
                 (l10n E "Could not verify server key." ++ " " ++ err_message error) in
       log (PortEmit (auth_requestId this) ERROR (EmitableError error))).

Definition beforeLogin : M unit :=
  if isAuthForm (auth_worker this) then
    set_tabId (tab_id (auth_worker this)) ;;
    tab <- get_tabId ;;
    log (AuthWorkerEmit tab "passbolt.auth.login-processing" [l10n E "Logging in"])
  else ret tt.

Definition syncUserSettings : M unit :=
  try_catch
    (await settings_sync (sync_result E) ;;
     u <- get_user ;;
     set_user {| csrfToken := csrfToken u; masterPassword := masterPassword u;
                 settings := SettingsSynced |})
    (fun error =>
       (* fail silently for CE users *)
       invoke settings_setDefaults ;;
       u <- get_user ;;
       set_user {| csrfToken := csrfToken u; masterPassword := masterPassword u;
                   settings := SettingsDefaults |}).

(** The test of [handleLoginSuccess] that sends the user to the trusted
    domain itself:
    [!redirect || !(typeof redirect === 'string' || redirect instanceof String)
     || redirect.charAt(0) !== '/'] *)
Definition ignores_redirect (redirect : jsval) : bool :=
  negb (ToBoolean redirect)
  || negb (typeof_string redirect || instanceof_String redirect)
  || negb (charAt0 (string_value redirect) =? "/").

(** The argument of [new URL(...)] in [handleLoginSuccess]. *)
Definition redirect_target (redirect : jsval) : string :=
  if ignores_redirect redirect then trustedDomain E
  else trustedDomain E ++ string_value redirect.

Definition handleLoginSuccess (redirect : jsval) : M unit :=
  await PassboltApp_init (init_result E) ;;
  if isAuthForm (auth_worker this) then
    let target := redirect_target redirect in
    href <- await (new_URL target)
              (match URL_href E target with
               | Some href => Normal href
               | None => Throw (mkError TypeError "Invalid URL")
               end) ;;
    let msg := l10n E "You are now logged in!" in
    tab <- get_tabId ;;
    log (AuthWorkerEmit tab "passbolt.auth.login-success" [msg; href])
  else
    log (PortEmit (auth_requestId this) SUCCESS NoPayload).

Definition handleLoginError (error : jserror) : M unit :=
  if isAuthForm (auth_worker this) then
    tab <- get_tabId ;;
    log (AuthWorkerEmit tab "passbolt.auth.login-failed" [err_message error])
  else
    log (PortEmit (auth_requestId this) ERROR (EmitableError error)).

Definition login (passphrase : string) (remember redirect : jsval) : M unit :=
  beforeLogin ;;
  try_catch
    (await retrieveAndStoreCsrfToken (csrf_result E) ;;
     u <- get_user ;;
     set_user {| csrfToken := true; masterPassword := masterPassword u;
                 settings := settings u |} ;;
     privateKey <- await (getAndDecryptPrivateKey passphrase)
                         (decryptPrivateKey_result E passphrase) ;;
     await (auth_login privateKey) (login_result E privateKey) ;;
     (if ToBoolean remember then
        invoke (storeMasterPasswordTemporarily passphrase (-1)) ;;
        u <- get_user ;;
        set_user {| csrfToken := csrfToken u; masterPassword := Some (passphrase, (-1)%Z);
                    settings := settings u |}
      else ret tt) ;;
     await startCheckAuthStatusLoop (startLoop_result E) ;;
     syncUserSettings ;;
     not_awaited (handleLoginSuccess redirect))
    (fun error => handleLoginError error).

End Auth.

(** ** SecretDecryptController *)

Record SecretDecryptController : Type := mkSecretDecryptController {
  sd_worker : worker;
  sd_requestId : string
}.

Section SecretDecrypt.
Variable E : Env.
Variable this : SecretDecryptController.

(** The result is [None] for JavaScript's [undefined], which
    [resource.secrets[0]] is when the resource carries no secret. *)
Definition _getSecret (resourceId : string) : M (option secret) :=
  try_catch
    (secret <- await (findByResourceId resourceId) (findByResourceId_result E resourceId) ;;
     ret (Some secret))
    (fun error =>
       resource <- await (LegacyResourceService_findOne resourceId)
                         (findOne_result E resourceId) ;;
       ret (nth_error (secrets resource) 0)).

(** [_getSecret] up to its first [await]: the primary lookup is called,
    and the function is suspended until it settles. *)
Definition _getSecret_started (resourceId : string) : M unit :=
  log (Called (findByResourceId resourceId)
              (returned (findByResourceId_result E resourceId))).

(** [_getSecret] from its first [await] on, once the primary lookup has
    settled. *)
Definition _getSecret_resumed (resourceId : string) : M (option secret) :=
  try_catch
    (secret <- (fun s => (findByResourceId_result E resourceId, s)) ;;
     ret (Some secret))
    (fun error =>
       resource <- await (LegacyResourceService_findOne resourceId)
                         (findOne_result E resourceId) ;;
       ret (nth_error (secrets resource) 0)).

(** [secret.data]: a TypeError when [secret] is undefined. *)
Definition secret_data (s : option secret) : M string :=
  match s with
  | Some s => ret (data s)
  | None => throw (mkError TypeError "Cannot read property 'data' of undefined")
  end.

Definition decrypt (resourceId : string) : M unit :=
  and_what_it_started
    (secretPromise <- start_promise (lookup_delay E)
                        (_getSecret_started resourceId) (_getSecret_resumed resourceId) ;;
     (* Capture the passphrase if needed *)
     passphrase <- try_catch
                     (passphrase <- await_yielding passphraseController_get
                                      (passphrase_result E) ;;
                      ret (Some passphrase))
                     (fun error =>
                        log (PortEmit (sd_requestId this) ERROR (EmitableError error)) ;;
                        ret None) ;;
     match passphrase with
     | None => ret tt                       (* the [return] of the catch block *)
     | Some passphrase =>
         try_catch
           (await_yielding
              (progressController_open "Decrypting..." 2 "Decrypting private key")
              (open_result E) ;;
            secret <- await_promise secretPromise ;;
            privateKey <- await_yielding (getAndDecryptPrivateKey passphrase)
                                         (decryptPrivateKey_result E passphrase) ;;
            await_yielding (progressController_update 1 "Decrypting secret")
                           (update1_result E) ;;
            ciphertext <- secret_data secret ;;
            message <- await_yielding (decryptWithKey ciphertext privateKey)
                                      (decryptWithKey_result E ciphertext privateKey) ;;
            await_yielding (progressController_update 2 "Complete") (update2_result E) ;;
            log (PortEmit (sd_requestId this) SUCCESS (Message message)) ;;
            await_yielding progressController_close (close_result E))
           (fun error =>
              invoke (console_error error) ;;
              log (PortEmit (sd_requestId this) ERROR (EmitableError error)) ;;
              await_yielding progressController_close (close_catch_result E))
     end).

End SecretDecrypt.

(** ** Observations on a run *)

(** The events of a controller method run from a newly constructed
    controller, for the [User] singleton in state [u]. *)
Definition events {A} (m : M A) (u : User) : list event := trace (snd (m (initial u))).

Definition final_user {A} (m : M A) (u : User) : User := user (snd (m (initial u))).

Definition outcome {A} (m : M A) (u : User) : completion A := fst (m (initial u)).

(** A success reply: [SUCCESS] on the caller's port, or the login-success
    message on the Auth worker of the login form. *)
Definition is_success_reply (e : event) : bool :=
  match e with
  | PortEmit _ SUCCESS _ => true
  | AuthWorkerEmit _ name _ => name =? "passbolt.auth.login-success"
  | _ => false
  end.

(** A failure reply: [ERROR] on the caller's port, or the login-failed
    message on the Auth worker of the login form. *)
Definition is_failure_reply (e : event) : bool :=
  match e with
  | PortEmit _ ERROR _ => true
  | AuthWorkerEmit _ name _ => name =? "passbolt.auth.login-failed"
  | _ => false
  end.

Definition is_reply (e : event) : bool := is_success_reply e || is_failure_reply e.

Definition key_decrypted (e : event) : bool :=
  match e with Called (getAndDecryptPrivateKey _) true => true | _ => false end.

Definition key_decryption_failed (e : event) : bool :=
  match e with Called (getAndDecryptPrivateKey _) false => true | _ => false end.

Definition login_called (e : event) : bool :=
  match e with Called (auth_login _) _ => true | _ => false end.

Definition logged_in (e : event) : bool :=
  match e with Called (auth_login _) true => true | _ => false end.

Definition remote_login_failed (e : event) : bool :=
  match e with Called (auth_login _) false => true | _ => false end.

Definition loop_start_called (e : event) : bool :=
  match e with Called startCheckAuthStatusLoop _ => true | _ => false end.

Definition loop_started (e : event) : bool :=
  match e with Called startCheckAuthStatusLoop true => true | _ => false end.

Definition loop_start_failed (e : event) : bool :=
  match e with Called startCheckAuthStatusLoop false => true | _ => false end.

Definition sync_called (e : event) : bool :=
  match e with Called settings_sync _ => true | _ => false end.

Definition setDefaults_called (e : event) : bool :=
  match e with Called settings_setDefaults _ => true | _ => false end.

Definition store_called (e : event) : bool :=
  match e with Called (storeMasterPasswordTemporarily _ _) _ => true | _ => false end.

Definition app_initialised (e : event) : bool :=
  match e with Called PassboltApp_init true => true | _ => false end.

Definition expiry_probed (e : event) : bool :=
  match e with Called isServerKeyExpired _ => true | _ => false end.

Definition primary_lookup_called (e : event) : bool :=
  match e with Called (findByResourceId _) _ => true | _ => false end.

Definition legacy_lookup_called (e : event) : bool :=
  match e with Called (LegacyResourceService_findOne _) _ => true | _ => false end.

Definition progress_opened (e : event) : bool :=
  match e with Called (progressController_open _ _ _) _ => true | _ => false end.

Definition progress_closed (e : event) : bool :=
  match e with Called progressController_close _ => true | _ => false end.

Definition progress_event (e : event) : bool :=
  match e with
  | Called (progressController_open _ _ _) _
  | Called (progressController_update _ _) _
  | Called progressController_close _ => true
  | _ => false
  end.

Definition count (p : event -> bool) (t : list event) : nat := length (filter p t).

(** [in_order ps t]: the log [t] has events satisfying the predicates [ps],
    one after the other in this order. *)
Fixpoint in_order (ps : list (event -> bool)) (t : list event) : bool :=
  match ps, t with
  | [], _ => true
  | _ :: _, [] => false
  | p :: ps', e :: t' => if p e then in_order ps' t' else in_order ps t'
  end.

(** [preceded_by p q t]: no event satisfying [q] occurs in [t] before the
    first event satisfying [p]. *)
Fixpoint preceded_by (p q : event -> bool) (t : list event) : bool :=
  match t with
  | [] => true
  | e :: t' => if p e then true else negb (q e) && preceded_by p q t'
  end.

(** The redirect rule in the words of the specification: the trusted domain
    as it is when the redirect is absent, is not a string or does not start
    with a slash, the trusted domain followed by the redirect otherwise.  A
    String object counts as a string, as it does for the source's test. *)
Definition starts_with_slash (s : string) : bool :=
  match s with
  | String c _ => Ascii.eqb c "/"%char
  | EmptyString => false
  end.

Definition spec_redirect_target (domain : string) (redirect : jsval) : string :=
  match redirect with
  | JString s | JStringObject s =>
      if starts_with_slash s then domain ++ s else domain
  | _ => domain
  end.

(** ** Sample environments and callers *)

(** An environment for [AuthController], from what each collaborator
    answers; the trusted domain is fixed and messages are not translated. *)
Definition auth_env (verified : completion unit) (changed expired : completion bool)
    (csrf : completion unit) (key : completion privateKey)
    (remote loop sync init : completion unit) : Env :=
  {| l10n := fun s => s;
     trustedDomain := "https://passbolt.test";
     URL_href := fun s => Some s;
     csrf_result := csrf;
     decryptPrivateKey_result := fun _ => key;
     login_result := fun _ => remote;
     startLoop_result := loop;
     sync_result := sync;
     init_result := init;
     verify_result := verified;
     serverKeyChanged_result := changed;
     isServerKeyExpired_result := expired;
     findByResourceId_result := fun _ => Normal (mkSecret "ciphertext");
     findOne_result := fun _ => Normal (mkResource [mkSecret "legacy-ciphertext"]);
     passphrase_result := Normal "correct";
     open_result := Normal tt;
     update1_result := Normal tt;
     update2_result := Normal tt;
     close_result := Normal tt;
     close_catch_result := Normal tt;
     decryptWithKey_result := fun _ _ => Normal "plaintext";
     lookup_delay := 0 |}.

(** An environment for [SecretDecryptController]. *)
Definition decrypt_env (primary : completion secret) (legacy : completion resource)
    (prompt : completion string) (key : completion privateKey)
    (plaintext : completion string) (closed closed_in_catch : completion unit) : Env :=
  {| l10n := fun s => s;
     trustedDomain := "https://passbolt.test";
     URL_href := fun s => Some s;
     csrf_result := Normal tt;
     decryptPrivateKey_result := fun _ => key;
     login_result := fun _ => Normal tt;
     startLoop_result := Normal tt;
     sync_result := Normal tt;
     init_result := Normal tt;
     verify_result := Normal tt;
     serverKeyChanged_result := Normal false;
     isServerKeyExpired_result := Normal false;
     findByResourceId_result := fun _ => primary;
     findOne_result := fun _ => legacy;
     passphrase_result := prompt;
     open_result := Normal tt;
     update1_result := Normal tt;
     update2_result := Normal tt;
     close_result := closed;
     close_catch_result := closed_in_catch;
     decryptWithKey_result := fun _ _ => plaintext;
     lookup_delay := 0 |}.

Definition failure (message : string) : jserror := mkError PlainError message.

(** Every collaborator succeeds. *)
Definition all_fine : Env :=
  auth_env (Normal tt) (Normal false) (Normal false) (Normal tt) (Normal "private-key")
           (Normal tt) (Normal tt) (Normal tt) (Normal tt).

Definition wrong_passphrase : Env :=
  auth_env (Normal tt) (Normal false) (Normal false) (Normal tt)
           (Throw (failure "This is not a valid passphrase"))
           (Normal tt) (Normal tt) (Normal tt) (Normal tt).

Definition login_refused : Env :=
  auth_env (Normal tt) (Normal false) (Normal false) (Normal tt) (Normal "private-key")
           (Throw (failure "The server rejected the login"))
           (Normal tt) (Normal tt) (Normal tt).

Definition loop_start_rejected : Env :=
  auth_env (Normal tt) (Normal false) (Normal false) (Normal tt) (Normal "private-key")
           (Normal tt) (Throw (failure "The session status could not be checked"))
           (Normal tt) (Normal tt).

Definition sync_unavailable : Env :=
  auth_env (Normal tt) (Normal false) (Normal false) (Normal tt) (Normal "private-key")
           (Normal tt) (Normal tt) (Throw (failure "Not found")) (Normal tt).

Definition key_changed : Env :=
  auth_env (Throw (failure "verification failed")) (Normal true) (Normal true)
           (Normal tt) (Normal "private-key") (Normal tt) (Normal tt) (Normal tt) (Normal tt).

Definition key_expired : Env :=
  auth_env (Throw (failure "verification failed")) (Normal false) (Normal true)
           (Normal tt) (Normal "private-key") (Normal tt) (Normal tt) (Normal tt) (Normal tt).

Definition key_unverifiable : Env :=
  auth_env (Throw (failure "verification failed")) (Normal false) (Normal false)
           (Normal tt) (Normal "private-key") (Normal tt) (Normal tt) (Normal tt) (Normal tt).

Definition direct_caller : AuthController :=
  {| auth_worker := {| pageMod := Some "App"; tab_id := 7 |}; auth_requestId := "req-1" |}.

Definition login_form : AuthController :=
  {| auth_worker := {| pageMod := Some "AuthForm"; tab_id := 7 |}; auth_requestId := "req-1" |}.

Definition decrypt_caller : SecretDecryptController :=
  {| sd_worker := {| pageMod := Some "App"; tab_id := 7 |}; sd_requestId := "req-2" |}.

(** An environment in which the secret lookup goes on later. *)
Definition with_lookup_delay (n : nat) (E : Env) : Env :=
  {| l10n := l10n E; trustedDomain := trustedDomain E; URL_href := URL_href E;
     csrf_result := csrf_result E;
     decryptPrivateKey_result := decryptPrivateKey_result E;
     login_result := login_result E;
     startLoop_result := startLoop_result E;
     sync_result := sync_result E;
     init_result := init_result E;
     verify_result := verify_result E;
     serverKeyChanged_result := serverKeyChanged_result E;
     isServerKeyExpired_result := isServerKeyExpired_result E;
     findByResourceId_result := findByResourceId_result E;
     findOne_result := findOne_result E;
     passphrase_result := passphrase_result E;
     open_result := open_result E;
     update1_result := update1_result E;
     update2_result := update2_result E;
     close_result := close_result E;
     close_catch_result := close_catch_result E;
     decryptWithKey_result := decryptWithKey_result E;
     lookup_delay := n |}.

Definition decrypt_fine : Env :=
  decrypt_env (Normal (mkSecret "ciphertext")) (Normal (mkResource [mkSecret "legacy-ciphertext"]))
              (Normal "correct") (Normal "private-key") (Normal "plaintext")
              (Normal tt) (Normal tt).

Definition old_server : Env :=
  decrypt_env (Throw (failure "Not found")) (Normal (mkResource [mkSecret "legacy-ciphertext"]))
              (Normal "correct") (Normal "private-key") (Normal "plaintext")
              (Normal tt) (Normal tt).

Definition prompt_cancelled : Env :=
  decrypt_env (Throw (failure "Not found")) (Throw (failure "Not found either"))
              (Throw (failure "The user cancelled the passphrase prompt"))
              (Normal "private-key") (Normal "plaintext") (Normal tt) (Normal tt).

Definition garbled_secret : Env :=
  decrypt_env (Normal (mkSecret "ciphertext")) (Normal (mkResource []))
              (Normal "correct") (Normal "private-key")
              (Throw (failure "Not a valid message")) (Normal tt) (Normal tt).

(** ** Further observations *)

Definition is_port_emit (e : event) : bool :=
  match e with PortEmit _ _ _ => true | _ => false end.

Definition is_auth_worker_emit (e : event) : bool :=
  match e with AuthWorkerEmit _ _ _ => true | _ => false end.

(** A port message that answers the request [requestId]. *)
Definition answers_request (requestId : string) (e : event) : bool :=
  match e with PortEmit r _ _ => r =? requestId | _ => true end.

(** An Auth worker message that goes to the tab [tab]. *)
Definition goes_to_tab (tab : Z) (e : event) : bool :=
  match e with
  | AuthWorkerEmit (Some t) _ _ => (t =? tab)%Z
  | AuthWorkerEmit None _ _ => false
  | _ => true
  end.

Definition init_called (e : event) : bool :=
  match e with Called PassboltApp_init _ => true | _ => false end.

Definition init_failed (e : event) : bool :=
  match e with Called PassboltApp_init false => true | _ => false end.

Definition url_rejected (e : event) : bool :=
  match e with Called (new_URL _) false => true | _ => false end.

Definition url_called (e : event) : bool :=
  match e with Called (new_URL _) _ => true | _ => false end.

Definition key_decryption_called (e : event) : bool :=
  match e with Called (getAndDecryptPrivateKey _) _ => true | _ => false end.

Definition secret_decryption_called (e : event) : bool :=
  match e with Called (decryptWithKey _ _) _ => true | _ => false end.

Definition probe_called (e : event) : bool :=
  match e with
  | Called serverKeyChanged _ | Called isServerKeyExpired _ => true
  | _ => false
  end.

(** The error of the first step of [login]'s try block that fails, if one
    does: the token, the key decryption, the remote login, the loop start. *)
Definition login_failure (E : Env) (passphrase : string) : option jserror :=
  match csrf_result E with
  | Throw e => Some e
  | Normal _ =>
      match decryptPrivateKey_result E passphrase with
      | Throw e => Some e
      | Normal key =>
          match login_result E key with
          | Throw e => Some e
          | Normal _ =>
              match startLoop_result E with
              | Throw e => Some e
              | Normal _ => None
              end
          end
      end
  end.

(** The message by which a caller learns of the error [e]. *)
Definition failure_notice (this : AuthController) (e : jserror) : event :=
  if isAuthForm (auth_worker this) then
    AuthWorkerEmit (Some (tab_id (auth_worker this))) "passbolt.auth.login-failed"
                   [err_message e]
  else PortEmit (auth_requestId this) ERROR (EmitableError e).

(** ** The debug page mod

    [Debug.init] of debugPagemod.js.  The page mods it creates are named by
    the order of their creation; the log keeps the [Log.write] entries and
    the page mods created and destroyed.  [chrome.runtime.getURL] is a
    parameter. *)
Module Debug.

Record options : Type := mkOptions {
  name : string;
  include : string;
  contentScriptWhen : string;
  contentScriptFile : list string
}.

Inductive event : Type :=
| Log_write (level message : string)
| PageMod (handle : nat) (o : options)
| destroy (handle : nat)
| Worker_add (workerId : string) (w : worker)
| listen (events : string) (w : worker).

Record state : Type := mkState {
  _pageMod : option nat;       (* Debug._pageMod *)
  created : nat;               (* page mods created so far *)
  trace : list event
}.

Definition initial : state := {| _pageMod := None; created := 0; trace := [] |}.

(** The [onAttach] handler given to the page mod. *)
Definition onAttach (w : worker) : list event :=
  [ Worker_add "debug" w;
    listen "config" w; listen "file" w; listen "keyring" w;
    listen "template" w; listen "user" w; listen "debug" w ].

Definition init (getURL : string -> string) (s : state) : state :=
  let t := (trace s
            ++ [ Log_write "warning" "Warning: plugin debug mode is on!";
                 Log_write "warning" (getURL "data/config-debug.html") ])%list in
  let t := match _pageMod s with
           | Some h => (t ++ [destroy h])%list
           | None => t
           end in
  {| _pageMod := Some (created s);
     created := S (created s);
     trace := (t ++ [PageMod (created s)
                       {| name := "debug";
                          include := getURL "data/config-debug.html";
                          contentScriptWhen := "end";
                          contentScriptFile := [] |}])%list |}.

(** [n] calls of [Debug.init]. *)
Fixpoint init_times (getURL : string -> string) (n : nat) (s : state) : state :=
  match n with
  | O => s
  | S n' => init getURL (init_times getURL n' s)
  end.

(** The page mods that a log leaves alive: created and not destroyed. *)
Definition alive_step (l : list nat) (e : event) : list nat :=
  match e with
  | PageMod h _ => (l ++ [h])%list
  | destroy h => filter (fun h' => negb (h' =? h)%nat) l
  | _ => l
  end.

Definition alive (t : list event) : list nat := fold_left alive_step t [].

Definition is_warning (e : event) : bool :=
  match e with Log_write level _ => (level =? "warning")%string | _ => false end.

Definition is_destroy (e : event) : bool :=
  match e with destroy _ => true | _ => false end.

(** What [n] calls do to page mods, in the words of a user: the first call
    creates one, and every later call destroys the one before and then
    creates the next. *)
Fixpoint lifecycle (getURL : string -> string) (n : nat) : list event :=
  match n with
  | O => []
  | S k =>
      (lifecycle getURL k
       ++ match k with O => [] | S j => [destroy j] end
       ++ [PageMod k {| name := "debug";
                        include := getURL "data/config-debug.html";
                        contentScriptWhen := "end";
                        contentScriptFile := [] |}])%list
  end.

End Debug.

(** * Properties *)

(** ** The monad and the log *)

Lemma bind_ret_l {A B} (a : A) (k : A -> M B) (s : state) :
  bind (ret a) k s = k a s.
Proof. reflexivity. Qed.

Lemma bind_ret_r {A} (m : M A) (s : state) : bind m ret s = m s.
Proof. unfold bind, ret. destruct (m s) as [[a|e] s']; reflexivity. Qed.

Lemma bind_assoc {A B C} (m : M A) (k : A -> M B) (h : B -> M C) (s : state) :
  bind (bind m k) h s = bind m (fun a => bind (k a) h) s.
Proof. unfold bind. destruct (m s) as [[a|e] s']; reflexivity. Qed.

Lemma try_catch_throw {A} (e : jserror) (handler : jserror -> M A) (s : state) :
  try_catch (throw e) handler s = handler e s.
Proof. reflexivity. Qed.

Lemma await_trace {A} (c : call) (o : completion A) (s : state) :
  trace (snd (await c o s)) = (trace s ++ [Called c (returned o)])%list.
Proof. reflexivity. Qed.

Lemma not_awaited_returns (m : M unit) (s : state) :
  fst (not_awaited m s) = Normal tt.
Proof. reflexivity. Qed.

Lemma count_app (p : event -> bool) (t1 t2 : list event) :
  count p (t1 ++ t2)%list = count p t1 + count p t2.
Proof. unfold count. rewrite filter_app. apply length_app. Qed.

Lemma count_zero_existsb (p : event -> bool) (t : list event) :
  count p t = 0 <-> existsb p t = false.
Proof.
  unfold count. induction t as [|e t IH]; simpl.
  - tauto.
  - destruct (p e); simpl; [split; discriminate | exact IH].
Qed.

Lemma in_order_one (q : event -> bool) (t : list event) :
  in_order [q] t = existsb q t.
Proof.
  induction t as [|e t IH]; simpl.
  - reflexivity.
  - destruct (q e); [destruct t; reflexivity | exact IH].
Qed.

(** When nothing satisfying [q] comes before the first [p], and no event
    satisfies both, a [q] in the log has a [p] before it. *)
Lemma preceded_by_in_order (p q : event -> bool) (t : list event) :
  (forall e, p e = true -> q e = false) ->
  preceded_by p q t = true -> existsb q t = true -> in_order [p; q] t = true.
Proof.
  intros Hdisjoint. induction t as [|e t IH]; simpl; intros Hpre Hq.
  - discriminate.
  - destruct (p e) eqn:Hp.
    + rewrite (Hdisjoint e Hp) in Hq. simpl in Hq.
      change (in_order [q] t = true). rewrite in_order_one. exact Hq.
    + destruct (q e); simpl in *; [discriminate | apply IH; assumption].
Qed.

(** The source's test of the first character is the specification's
    "starts with a slash". *)
Lemma charAt0_slash (s : string) : (charAt0 s =? "/") = starts_with_slash s.
Proof.
  destruct s as [|c s]; simpl.
  - reflexivity.
  - destruct (Ascii.eqb c "/"%char); reflexivity.
Qed.

Lemma redirect_target_spec (E : Env) (redirect : jsval) :
  redirect_target E redirect = spec_redirect_target (trustedDomain E) redirect.
Proof.
  unfold redirect_target, ignores_redirect, spec_redirect_target.
  destruct redirect as [| |b|n| |s|s|]; simpl;
    try reflexivity; try (destruct b; reflexivity);
    try (destruct (n =? 0)%Z; reflexivity).
  - (* a string value: the empty string is falsy and has no first character *)
    rewrite charAt0_slash. destruct s as [|c s]; simpl; [reflexivity|].
    destruct (Ascii.eqb c "/"%char); reflexivity.
  - (* a String object *)
    rewrite charAt0_slash. destruct (starts_with_slash s); reflexivity.
Qed.

(** Running a controller method: unfold it down to the state transformer,
    then consider each way its collaborators may answer, innermost test
    first. *)
Ltac unfold_run :=
  unfold events, final_user, outcome, login, verify, beforeLogin, syncUserSettings,
    handleLoginSuccess, handleLoginError, decrypt, _getSecret, _getSecret_started,
    _getSecret_resumed, secret_data, and_what_it_started,
    not_awaited, start_promise, await_promise, await_yielding, yield, join,
    try_catch, await, invoke, throw,
    bind, ret, log, get_user, set_user, get_tabId, set_tabId, initial;
  cbn.

Ltac split_cases :=
  repeat match goal with
         | |- context [match ?x with _ => _ end] =>
             lazymatch x with
             | context [match _ with _ => _ end] => fail
             | _ => destruct x eqn:?; cbn
             end
         end.

Ltac by_cases :=
  unfold_run; split_cases; repeat split; intros;
  try reflexivity; try discriminate; try congruence; try (intuition discriminate).

(** ** AuthController.login *)

(** C1.  Whatever the collaborators answer, [login] reports success only
    after the private key was decrypted and then the remote login succeeded;
    when the key decryption or the remote login fails, exactly one failure
    reply is emitted ([ERROR], or login-failed for the login form), no
    success is reported and the status loop is not started; and when the key
    decryption fails, [auth.login] is not called. *)
Theorem login_success_requires_key_and_login
    (E : Env) (this : AuthController) (passphrase : string)
    (remember redirect : jsval) (u : User) :
  let t := events (login E this passphrase remember redirect) u in
  (existsb is_success_reply t = true ->
   in_order [key_decrypted; logged_in; is_success_reply] t = true)
  /\ (existsb key_decryption_failed t = true \/ existsb remote_login_failed t = true ->
      count is_failure_reply t = 1
      /\ existsb is_success_reply t = false
      /\ existsb loop_start_called t = false)
  /\ (existsb key_decryption_failed t = true -> existsb login_called t = false).
Proof. by_cases. Qed.

Lemma login_success_requires_key_and_login_witness :
  in_order [key_decrypted; logged_in; is_success_reply]
    (events (login all_fine direct_caller "correct" (JBool false) JNull) fresh_user) = true
  /\ (count is_failure_reply
        (events (login login_refused login_form "correct" (JBool true) JNull) fresh_user) = 1
      /\ existsb is_success_reply
           (events (login login_refused login_form "correct" (JBool true) JNull) fresh_user) = false
      /\ existsb loop_start_called
           (events (login login_refused login_form "correct" (JBool true) JNull) fresh_user) = false)
  /\ existsb login_called
       (events (login wrong_passphrase direct_caller "wrong" (JBool false) JNull) fresh_user) = false.
Proof.
  split; [|split].
  - apply (proj1 (login_success_requires_key_and_login
                    all_fine direct_caller "correct" (JBool false) JNull fresh_user)).
    reflexivity.
  - apply (proj1 (proj2 (login_success_requires_key_and_login
                           login_refused login_form "correct" (JBool true) JNull fresh_user))).
    right. reflexivity.
  - apply (proj2 (proj2 (login_success_requires_key_and_login
                           wrong_passphrase direct_caller "wrong" (JBool false) JNull fresh_user))).
    reflexivity.
Defined.

(** The scenario of the specification: a wrong passphrase yields one
    [ERROR] carrying the error of the key decryption, and [auth.login] is
    not called. *)
Example login_wrong_passphrase :
  events (login wrong_passphrase direct_caller "wrong" (JBool false) JNull) fresh_user
  = [ Called retrieveAndStoreCsrfToken true;
      Called (getAndDecryptPrivateKey "wrong") false;
      PortEmit "req-1" ERROR (EmitableError (failure "This is not a valid passphrase")) ].
Proof. reflexivity. Qed.

(** ** AuthController.verify *)

(** C2.  When [auth.verify] fails, the error that is emitted is classified
    by the two probes, the changed key first: a [ServerKeyChangedError] when
    [serverKeyChanged] answers true, whatever [isServerKeyExpired] would
    answer (it is not even asked); otherwise a [KeyIsExpiredError] when
    [isServerKeyExpired] answers true; otherwise the error of [auth.verify]
    itself.  In each case the message is the notice that the server key
    could not be verified, a space, and the message of the cause, and this
    [ERROR] is the only reply. *)
Theorem verify_failure_classification
    (E : Env) (this : AuthController) (u : User) (e : jserror) :
  verify_result E = Throw e ->
  let t := events (verify E this) u in
  let notice := l10n E "Could not verify server key." in
  (serverKeyChanged_result E = Normal true ->
   filter is_reply t =
     [PortEmit (auth_requestId this) ERROR
        (EmitableError (mkError ServerKeyChangedError
                          (notice ++ " " ++ l10n E "The server key has changed.")))]
   /\ existsb expiry_probed t = false)
  /\ (serverKeyChanged_result E = Normal false ->
      isServerKeyExpired_result E = Normal true ->
      filter is_reply t =
        [PortEmit (auth_requestId this) ERROR
           (EmitableError (mkError KeyIsExpiredError
                             (notice ++ " " ++ l10n E "The server key is expired.")))])
  /\ (serverKeyChanged_result E = Normal false ->
      isServerKeyExpired_result E = Normal false ->
      filter is_reply t =
        [PortEmit (auth_requestId this) ERROR
           (EmitableError (mkError (err_class e) (notice ++ " " ++ err_message e)))]).
Proof.
  intros Hverify. unfold_run. rewrite Hverify. cbn.
  repeat split; intros; 
    repeat match goal with H : _ = Normal _ |- _ => rewrite H; clear H end;
    reflexivity.
Qed.

Lemma verify_failure_classification_witness :
  (filter is_reply (events (verify key_changed direct_caller) fresh_user) =
     [PortEmit "req-1" ERROR
        (EmitableError (mkError ServerKeyChangedError
                          "Could not verify server key. The server key has changed."))]
   /\ existsb expiry_probed (events (verify key_changed direct_caller) fresh_user) = false)
  /\ filter is_reply (events (verify key_expired direct_caller) fresh_user) =
       [PortEmit "req-1" ERROR
          (EmitableError (mkError KeyIsExpiredError
                            "Could not verify server key. The server key is expired."))]
  /\ filter is_reply (events (verify key_unverifiable direct_caller) fresh_user) =
       [PortEmit "req-1" ERROR
          (EmitableError (mkError PlainError
                            "Could not verify server key. verification failed"))].
Proof.
  split; [|split].
  - apply (proj1 (verify_failure_classification key_changed direct_caller fresh_user
                    (failure "verification failed") eq_refl)).
    reflexivity.
  - apply (proj1 (proj2 (verify_failure_classification key_expired direct_caller fresh_user
                           (failure "verification failed") eq_refl))); reflexivity.
  - apply (proj2 (proj2 (verify_failure_classification key_unverifiable direct_caller fresh_user
                           (failure "verification failed") eq_refl))); reflexivity.
Defined.

(** ** Settings synchronisation and the retained passphrase *)

(** C6.  When every step of [login] up to and including the start of the
    status loop succeeds and [user.settings.sync] fails, the failure is
    swallowed: the default settings are applied, no failure reply is emitted
    and [login] itself completes normally, and the login goes on to report
    success: with the application page mod initialised (and, for the login
    form, the address accepted by [URL]) exactly one success reply is
    emitted, which for a caller other than the login form is the plain
    [SUCCESS], the only reply.  When [remember] is falsy the retained
    passphrase is left as it was, so a session that held none holds none. *)
Theorem login_swallows_settings_sync_failure
    (E : Env) (this : AuthController) (passphrase : string)
    (remember redirect : jsval) (u : User) (key : privateKey) (e : jserror) :
  csrf_result E = Normal tt ->
  decryptPrivateKey_result E passphrase = Normal key ->
  login_result E key = Normal tt ->
  startLoop_result E = Normal tt ->
  sync_result E = Throw e ->
  let run := login E this passphrase remember redirect in
  settings (final_user run u) = SettingsDefaults
  /\ count setDefaults_called (events run u) = 1
  /\ count is_failure_reply (events run u) = 0
  /\ outcome run u = Normal tt
  /\ (init_result E = Normal tt ->
      (isAuthForm (auth_worker this) = true ->
       URL_href E (redirect_target E redirect) <> None) ->
      count is_success_reply (events run u) = 1)
  /\ (init_result E = Normal tt ->
      isAuthForm (auth_worker this) = false ->
      filter is_reply (events run u) = [PortEmit (auth_requestId this) SUCCESS NoPayload])
  /\ (ToBoolean remember = false ->
      masterPassword (final_user run u) = masterPassword u
      /\ (masterPassword u = None -> masterPassword (final_user run u) = None)).
Proof.
  intros Hcsrf Hkey Hlogin Hloop Hsync.
  unfold_run. rewrite Hcsrf, Hkey. cbn. rewrite Hlogin. cbn.
  destruct (ToBoolean remember); cbn; rewrite Hloop, Hsync; cbn;
    destruct (isAuthForm (auth_worker this)) eqn:Hform; cbn;
    destruct (init_result E) as [[]|e']; cbn;
    repeat split; intros; try reflexivity; try discriminate; try assumption;
    destruct (URL_href E (redirect_target E redirect)); cbn;
    try reflexivity; try discriminate; try tauto.
Qed.

Lemma login_swallows_settings_sync_failure_witness :
  settings (final_user (login sync_unavailable direct_caller "correct" (JBool false) JNull)
                       fresh_user) = SettingsDefaults
  /\ filter is_reply
       (events (login sync_unavailable direct_caller "correct" (JBool false) JNull) fresh_user)
     = [PortEmit "req-1" SUCCESS NoPayload]
  /\ masterPassword
       (final_user (login sync_unavailable direct_caller "correct" (JBool false) JNull)
                   fresh_user) = None.
Proof.
  pose proof (login_swallows_settings_sync_failure
                sync_unavailable direct_caller "correct" (JBool false) JNull fresh_user
                "private-key" (failure "Not found")
                eq_refl eq_refl eq_refl eq_refl eq_refl) as H.
  split; [exact (proj1 H)|split].
  - apply (proj1 (proj2 (proj2 (proj2 (proj2 (proj2 H)))))); reflexivity.
  - apply (proj2 (proj2 (proj2 (proj2 (proj2 (proj2 H)))))); reflexivity.
Defined.

(** The scenario of the specification, run. *)
Example login_without_settings_endpoint :
  events (login sync_unavailable direct_caller "correct" (JBool false) JNull) fresh_user
  = [ Called retrieveAndStoreCsrfToken true;
      Called (getAndDecryptPrivateKey "correct") true;
      Called (auth_login "private-key") true;
      Called startCheckAuthStatusLoop true;
      Called settings_sync false;
      Called settings_setDefaults true;
      Called PassboltApp_init true;
      PortEmit "req-1" SUCCESS NoPayload ].
Proof. reflexivity. Qed.

(** C7.  When the private key is decrypted and the remote login succeeds,
    [login] writes the retained passphrase exactly when [remember] is
    truthy, and what it stores is the passphrase of the call with the
    lifetime -1, the marker for "until logout": afterwards the [User] holds
    that pair when [remember] is truthy and what it held before otherwise,
    so that a session that held no passphrase holds one if and only if
    [remember] is truthy. *)
Theorem login_retains_passphrase_iff_remember
    (E : Env) (this : AuthController) (passphrase : string)
    (remember redirect : jsval) (u : User) (key : privateKey) :
  csrf_result E = Normal tt ->
  decryptPrivateKey_result E passphrase = Normal key ->
  login_result E key = Normal tt ->
  let run := login E this passphrase remember redirect in
  masterPassword (final_user run u)
    = (if ToBoolean remember then Some (passphrase, (-1)%Z) else masterPassword u)
  /\ filter store_called (events run u)
     = (if ToBoolean remember
        then [Called (storeMasterPasswordTemporarily passphrase (-1)) true]
        else [])
  /\ (masterPassword u = None ->
      (masterPassword (final_user run u) = Some (passphrase, (-1)%Z)
       <-> ToBoolean remember = true)
      /\ (ToBoolean remember = false -> masterPassword (final_user run u) = None)).
Proof.
  intros Hcsrf Hkey Hlogin.
  unfold_run. rewrite Hcsrf, Hkey. cbn. rewrite Hlogin. cbn.
  destruct (ToBoolean remember); cbn; split_cases;
    repeat split; intros; try reflexivity; try discriminate; try congruence.
Qed.

Lemma login_retains_passphrase_iff_remember_witness :
  masterPassword (final_user (login all_fine direct_caller "correct" (JBool true) JNull)
                             fresh_user) = Some ("correct", (-1)%Z)
  /\ masterPassword (final_user (login all_fine direct_caller "correct" (JBool false) JNull)
                                fresh_user) = None.
Proof.
  split.
  - exact (proj1 (login_retains_passphrase_iff_remember
                    all_fine direct_caller "correct" (JBool true) JNull fresh_user
                    "private-key" eq_refl eq_refl eq_refl)).
  - apply (proj2 (proj2 (login_retains_passphrase_iff_remember
                           all_fine direct_caller "correct" (JBool false) JNull fresh_user
                           "private-key" eq_refl eq_refl eq_refl)));
      reflexivity.
Defined.

(** ** Reporting a successful login *)

(** C8.  For a caller that is the login form, a login in which every step
    succeeds and [URL] accepts the address sends, as its one reply, the
    login-success message to the Auth worker of the form's tab, with the
    address that [URL] gives for the target of the specification's rule: the
    trusted domain as it is when [redirect] is absent, is not a string or
    does not start with a slash, and the trusted domain followed by
    [redirect] otherwise; that target is the one address given to [URL].
    And no login-success message is ever sent with another address. *)
Theorem login_form_redirect_url
    (E : Env) (this : AuthController) (passphrase : string)
    (remember redirect : jsval) (u : User) :
  isAuthForm (auth_worker this) = true ->
  let t := events (login E this passphrase remember redirect) u in
  let target := spec_redirect_target (trustedDomain E) redirect in
  (forall key href,
      csrf_result E = Normal tt ->
      decryptPrivateKey_result E passphrase = Normal key ->
      login_result E key = Normal tt ->
      startLoop_result E = Normal tt ->
      init_result E = Normal tt ->
      URL_href E target = Some href ->
      filter is_reply t
        = [AuthWorkerEmit (Some (tab_id (auth_worker this))) "passbolt.auth.login-success"
                          [l10n E "You are now logged in!"; href]]
      /\ filter url_called t = [Called (new_URL target) true])
  /\ (forall tab args,
        In (AuthWorkerEmit tab "passbolt.auth.login-success" args) t ->
        exists href,
          URL_href E target = Some href
          /\ args = [l10n E "You are now logged in!"; href]
          /\ tab = Some (tab_id (auth_worker this))).
Proof.
  intros Hform. cbv zeta. rewrite <- redirect_target_spec. split.
  - intros key href Hcsrf Hkey Hlogin Hloop Hinit Hurl.
    unfold_run. rewrite Hform, Hcsrf, Hkey. cbn. rewrite Hlogin. cbn.
    destruct (ToBoolean remember); cbn; rewrite Hloop; cbn;
      destruct (sync_result E) as [[]|e]; cbn; rewrite Hinit, Hurl; cbn;
      split; reflexivity.
  - intros tab args. unfold_run. rewrite Hform. cbn. split_cases; intros Hin;
      repeat (destruct Hin as [Hin|Hin]; try discriminate Hin); try contradiction.
    all: injection Hin as <- <-; eexists; repeat split.
Qed.

Lemma login_form_redirect_url_witness :
  filter is_reply (events (login all_fine login_form "correct" (JBool false) JUndefined)
                          fresh_user)
  = [AuthWorkerEmit (Some 7%Z) "passbolt.auth.login-success"
                    ["You are now logged in!"; "https://passbolt.test"]]
  /\ filter is_reply (events (login all_fine login_form "correct" (JBool false) (JNumber 5))
                             fresh_user)
     = [AuthWorkerEmit (Some 7%Z) "passbolt.auth.login-success"
                       ["You are now logged in!"; "https://passbolt.test"]]
  /\ filter is_reply (events (login all_fine login_form "correct" (JBool false)
                                    (JString "https://evil.test/")) fresh_user)
     = [AuthWorkerEmit (Some 7%Z) "passbolt.auth.login-success"
                       ["You are now logged in!"; "https://passbolt.test"]]
  /\ filter is_reply (events (login all_fine login_form "correct" (JBool false)
                                    (JString "/app/passwords")) fresh_user)
     = [AuthWorkerEmit (Some 7%Z) "passbolt.auth.login-success"
                       ["You are now logged in!"; "https://passbolt.test/app/passwords"]].
Proof.
  split; [|split; [|split]].
  - exact (proj1 (proj1 (login_form_redirect_url all_fine login_form "correct" (JBool false)
                           JUndefined fresh_user eq_refl)
                    "private-key" "https://passbolt.test"
                    eq_refl eq_refl eq_refl eq_refl eq_refl eq_refl)).
  - exact (proj1 (proj1 (login_form_redirect_url all_fine login_form "correct" (JBool false)
                           (JNumber 5) fresh_user eq_refl)
                    "private-key" "https://passbolt.test"
                    eq_refl eq_refl eq_refl eq_refl eq_refl eq_refl)).
  - exact (proj1 (proj1 (login_form_redirect_url all_fine login_form "correct" (JBool false)
                           (JString "https://evil.test/") fresh_user eq_refl)
                    "private-key" "https://passbolt.test"
                    eq_refl eq_refl eq_refl eq_refl eq_refl eq_refl)).
  - exact (proj1 (proj1 (login_form_redirect_url all_fine login_form "correct" (JBool false)
                           (JString "/app/passwords") fresh_user eq_refl)
                    "private-key" "https://passbolt.test/app/passwords"
                    eq_refl eq_refl eq_refl eq_refl eq_refl eq_refl)).
Defined.

(** The rule on sample redirects: an absent one, a number, an address of
    another site, and a path. *)
Example redirect_targets :
  map (redirect_target all_fine)
      [JUndefined; JNull; JNumber 5; JString ""; JString "https://evil.test/";
       JString "/app/users"; JStringObject "/app/users"]
  = [ "https://passbolt.test"; "https://passbolt.test"; "https://passbolt.test";
      "https://passbolt.test"; "https://passbolt.test";
      "https://passbolt.test/app/users"; "https://passbolt.test/app/users" ].
Proof. reflexivity. Qed.

(** C10.  In every run of [login], for the login form and for any other
    caller alike, no success reply is emitted before the application page
    mod has been initialised ([PassboltApp.init] has returned); so a success
    reply in the log has the initialisation before it. *)
Theorem login_initialises_app_before_success
    (E : Env) (this : AuthController) (passphrase : string)
    (remember redirect : jsval) (u : User) :
  let t := events (login E this passphrase remember redirect) u in
  preceded_by app_initialised is_success_reply t = true
  /\ (existsb is_success_reply t = true ->
      in_order [app_initialised; is_success_reply] t = true).
Proof.
  cbv zeta.
  assert (Hpre : preceded_by app_initialised is_success_reply
                   (events (login E this passphrase remember redirect) u) = true)
    by by_cases.
  split; [exact Hpre|].
  apply preceded_by_in_order; [|exact Hpre].
  intros [c [|]|r st p|tab name args]; simpl; try discriminate;
    destruct c; simpl; intros; try discriminate; reflexivity.
Qed.

Lemma login_initialises_app_before_success_witness :
  in_order [app_initialised; is_success_reply]
    (events (login all_fine direct_caller "correct" (JBool false) JNull) fresh_user) = true
  /\ in_order [app_initialised; is_success_reply]
       (events (login all_fine login_form "correct" (JBool false) JNull) fresh_user) = true.
Proof.
  split.
  - apply (proj2 (login_initialises_app_before_success
                    all_fine direct_caller "correct" (JBool false) JNull fresh_user)).
    reflexivity.
  - apply (proj2 (login_initialises_app_before_success
                    all_fine login_form "correct" (JBool false) JNull fresh_user)).
    reflexivity.
Defined.

(** ** The status loop *)

(** C9, as the code has it.  [login] awaits [startCheckAuthStatusLoop]:
    once the remote login has succeeded the loop start is called exactly
    once; the settings are synchronised and success is reported only after
    that call has returned; and when it fails, [login] emits exactly one
    failure reply and neither synchronises the settings, nor initialises the
    application page mod, nor reports success. *)
Theorem login_awaits_loop_start
    (E : Env) (this : AuthController) (passphrase : string)
    (remember redirect : jsval) (u : User) :
  let t := events (login E this passphrase remember redirect) u in
  (existsb logged_in t = true -> count loop_start_called t = 1)
  /\ preceded_by loop_started sync_called t = true
  /\ preceded_by loop_started is_success_reply t = true
  /\ (existsb loop_start_failed t = true ->
      count is_failure_reply t = 1
      /\ existsb sync_called t = false
      /\ existsb app_initialised t = false
      /\ existsb is_success_reply t = false).
Proof. by_cases. Qed.

Lemma login_awaits_loop_start_witness :
  count loop_start_called
    (events (login all_fine direct_caller "correct" (JBool false) JNull) fresh_user) = 1
  /\ (count is_failure_reply
        (events (login loop_start_rejected direct_caller "correct" (JBool false) JNull)
                fresh_user) = 1
      /\ existsb sync_called
           (events (login loop_start_rejected direct_caller "correct" (JBool false) JNull)
                   fresh_user) = false
      /\ existsb app_initialised
           (events (login loop_start_rejected direct_caller "correct" (JBool false) JNull)
                   fresh_user) = false
      /\ existsb is_success_reply
           (events (login loop_start_rejected direct_caller "correct" (JBool false) JNull)
                   fresh_user) = false).
Proof.
  split.
  - apply (proj1 (login_awaits_loop_start
                    all_fine direct_caller "correct" (JBool false) JNull fresh_user)).
    reflexivity.
  - apply (proj2 (proj2 (proj2 (login_awaits_loop_start
                    loop_start_rejected direct_caller "correct" (JBool false) JNull
                    fresh_user)))).
    reflexivity.
Defined.

(** C9, as the specification words it, fails.  Were the loop started
    without being awaited, the way its promise settles could not change what
    [login] does next.  Here every other collaborator succeeds and the
    promise of [startCheckAuthStatusLoop] rejects: the remote login has
    succeeded, yet [login] does not go on to the settings and the success
    report, and replies with the loop's error. *)
Lemma login_loop_start_not_fire_and_forget :
  events (login loop_start_rejected direct_caller "correct" (JBool false) JNull) fresh_user
  = [ Called retrieveAndStoreCsrfToken true;
      Called (getAndDecryptPrivateKey "correct") true;
      Called (auth_login "private-key") true;
      Called startCheckAuthStatusLoop false;
      PortEmit "req-1" ERROR
        (EmitableError (failure "The session status could not be checked")) ]
  /\ filter is_reply
       (events (login loop_start_rejected direct_caller "correct" (JBool false) JNull)
               fresh_user)
     <> filter is_reply
          (events (login all_fine direct_caller "correct" (JBool false) JNull) fresh_user).
Proof. split; [reflexivity | discriminate]. Qed.

(** ** SecretDecryptController *)

(** What [_getSecret] answers: the secret of the primary lookup, and when
    that lookup fails the first secret of the resource that the legacy
    lookup returns (undefined when it carries none), or the legacy lookup's
    error. *)
Lemma _getSecret_outcome (E : Env) (resourceId : string) (u : User) :
  outcome (_getSecret E resourceId) u =
    match findByResourceId_result E resourceId with
    | Normal secret => Normal (Some secret)
    | Throw _ =>
        match findOne_result E resourceId with
        | Normal resource => Normal (hd_error (secrets resource))
        | Throw e => Throw e
        end
    end.
Proof.
  unfold_run. split_cases; reflexivity.
Qed.

(** C4.  In every run of [decrypt] the primary lookup
    [Secret.findByResourceId] is called once, and the legacy lookup
    [LegacyResourceService.findOne] is called, once, if and only if the
    primary lookup failed; when the primary lookup succeeds the legacy
    lookup is not called. *)
Theorem decrypt_legacy_lookup_iff_primary_fails
    (E : Env) (this : SecretDecryptController) (resourceId : string) (u : User) :
  let t := events (decrypt E this resourceId) u in
  filter primary_lookup_called t
    = [Called (findByResourceId resourceId) (returned (findByResourceId_result E resourceId))]
  /\ filter legacy_lookup_called t
     = (if returned (findByResourceId_result E resourceId) then []
        else [Called (LegacyResourceService_findOne resourceId)
                     (returned (findOne_result E resourceId))])
  /\ (existsb legacy_lookup_called t = true
      <-> returned (findByResourceId_result E resourceId) = false).
Proof. by_cases. Qed.

Lemma decrypt_legacy_lookup_iff_primary_fails_witness :
  existsb legacy_lookup_called (events (decrypt old_server decrypt_caller "res-123") fresh_user)
    = true
  /\ returned (findByResourceId_result decrypt_fine "res-123") = true.
Proof.
  split.
  - apply (proj2 (proj2 (decrypt_legacy_lookup_iff_primary_fails
                           old_server decrypt_caller "res-123" fresh_user))).
    reflexivity.
  - destruct (returned (findByResourceId_result decrypt_fine "res-123")) eqn:Hprimary.
    + reflexivity.
    + apply (proj2 (proj2 (decrypt_legacy_lookup_iff_primary_fails
                             decrypt_fine decrypt_caller "res-123" fresh_user))) in Hprimary.
      discriminate Hprimary.
Defined.

(** The scenario of the specification: the primary lookup fails, the legacy
    one succeeds, and the legacy secret is decrypted.  Here the lookup goes
    on only when [decrypt] awaits its promise. *)
Example decrypt_on_old_server :
  events (decrypt (with_lookup_delay 2 old_server) decrypt_caller "res-123") fresh_user
  = [ Called (findByResourceId "res-123") false;
      Called passphraseController_get true;
      Called (progressController_open "Decrypting..." 2 "Decrypting private key") true;
      Called (LegacyResourceService_findOne "res-123") true;
      Called (getAndDecryptPrivateKey "correct") true;
      Called (progressController_update 1 "Decrypting secret") true;
      Called (decryptWithKey "legacy-ciphertext" "private-key") true;
      Called (progressController_update 2 "Complete") true;
      PortEmit "req-2" SUCCESS (Message "plaintext");
      Called progressController_close true ].
Proof. reflexivity. Qed.

(** The secret lookup, from its first [await] on, is what [_getSecret]
    does after the call of the primary lookup. *)
Lemma _getSecret_suspends (E : Env) (resourceId : string) (s : state) :
  _getSecret E resourceId s
  = bind (_getSecret_started E resourceId) (fun _ => _getSecret_resumed E resourceId) s.
Proof.
  unfold _getSecret, _getSecret_started, _getSecret_resumed, try_catch, await, bind, ret, log.
  cbn. destruct (findByResourceId_result E resourceId); reflexivity.
Qed.



(** The cancelled prompt, run in an environment where both lookups fail,
    with a lookup that goes on while the prompt is pending and with one
    that goes on later: the failed lookups are not reported, and the later
    one is not waited for. *)
Example decrypt_cancelled :
  events (decrypt prompt_cancelled decrypt_caller "res-123") fresh_user
  = [ Called (findByResourceId "res-123") false;
      Called passphraseController_get false;
      Called (LegacyResourceService_findOne "res-123") false;
      PortEmit "req-2" ERROR
        (EmitableError (failure "The user cancelled the passphrase prompt")) ]
  /\ events (decrypt (with_lookup_delay 1 prompt_cancelled) decrypt_caller "res-123") fresh_user
     = [ Called (findByResourceId "res-123") false;
         Called passphraseController_get false;
         PortEmit "req-2" ERROR
           (EmitableError (failure "The user cancelled the passphrase prompt"));
         Called (LegacyResourceService_findOne "res-123") false ].
Proof. split; reflexivity. Qed.




(** A failure path, run: the secret cannot be decrypted. *)
Example decrypt_garbled_secret :
  events (decrypt garbled_secret decrypt_caller "res-123") fresh_user
  = [ Called (findByResourceId "res-123") true;
      Called passphraseController_get true;
      Called (progressController_open "Decrypting..." 2 "Decrypting private key") true;
      Called (getAndDecryptPrivateKey "correct") true;
      Called (progressController_update 1 "Decrypting secret") true;
      Called (decryptWithKey "ciphertext" "private-key") false;
      Called (console_error (failure "Not a valid message")) true;
      PortEmit "req-2" ERROR (EmitableError (failure "Not a valid message"));
      Called progressController_close true ].
Proof. reflexivity. Qed.

(** The path of the rejected close, run in full: the rejection of the
    close that follows [SUCCESS] is caught like any other, so an [ERROR]
    follows the [SUCCESS] and close is called again. *)
Example decrypt_close_rejected :
  events (decrypt (decrypt_env (Normal (mkSecret "ciphertext")) (Normal (mkResource []))
                               (Normal "correct") (Normal "private-key") (Normal "plaintext")
                               (Throw (failure "No progress dialog")) (Normal tt))
                  decrypt_caller "res-123") fresh_user
  = [ Called (findByResourceId "res-123") true;
      Called passphraseController_get true;
      Called (progressController_open "Decrypting..." 2 "Decrypting private key") true;
      Called (getAndDecryptPrivateKey "correct") true;
      Called (progressController_update 1 "Decrypting secret") true;
      Called (decryptWithKey "ciphertext" "private-key") true;
      Called (progressController_update 2 "Complete") true;
      PortEmit "req-2" SUCCESS (Message "plaintext");
      Called progressController_close false;
      Called (console_error (failure "No progress dialog")) true;
      PortEmit "req-2" ERROR (EmitableError (failure "No progress dialog"));
      Called progressController_close true ].
Proof. reflexivity. Qed.

(** * Further properties of the controllers *)

(** ** verify *)

(** X1.  When [auth.verify] succeeds, [verify] does nothing but report it:
    the log is the verification and one [SUCCESS] with the localised
    message, neither probe is called, and [verify] completes normally. *)
Theorem verify_success
    (E : Env) (this : AuthController) (u : User) :
  verify_result E = Normal tt ->
  events (verify E this) u
    = [ Called auth_verify true;
        PortEmit (auth_requestId this) SUCCESS
          (Message (l10n E "The server key is verified. The server can use it to sign and decrypt content.")) ]
  /\ existsb probe_called (events (verify E this) u) = false
  /\ outcome (verify E this) u = Normal tt.
Proof.
  intros Hverify. unfold_run. rewrite Hverify. cbn. repeat split.
Qed.

Lemma verify_success_witness :
  existsb probe_called (events (verify all_fine direct_caller) fresh_user) = false.
Proof.
  exact (proj1 (proj2 (verify_success all_fine direct_caller fresh_user eq_refl))).
Defined.

(** X2.  [verify] replies at most once, and exactly once when it completes
    normally.  It fails only when a probe fails, after the verification
    itself has failed: it then replies nothing, and the error it fails with
    is the probe's, not the one of the verification. *)
Theorem verify_replies_unless_probe_fails
    (E : Env) (this : AuthController) (u : User) :
  let t := events (verify E this) u in
  (outcome (verify E this) u = Normal tt -> count is_reply t = 1)
  /\ (forall e, outcome (verify E this) u = Throw e ->
        count is_reply t = 0
        /\ returned (verify_result E) = false
        /\ (serverKeyChanged_result E = Throw e
            \/ (serverKeyChanged_result E = Normal false
                /\ isServerKeyExpired_result E = Throw e))).
Proof.
  unfold_run. split_cases; repeat split; intros; try reflexivity; try discriminate;
    try (left; congruence); try (right; split; congruence).
Qed.

Lemma verify_replies_unless_probe_fails_witness :
  count is_reply
    (events (verify (auth_env (Throw (failure "verification failed"))
                              (Throw (failure "no keyring")) (Normal true)
                              (Normal tt) (Normal "private-key") (Normal tt) (Normal tt)
                              (Normal tt) (Normal tt))
                    direct_caller) fresh_user) = 0.
Proof.
  exact (proj1 (proj2 (verify_replies_unless_probe_fails
                  (auth_env (Throw (failure "verification failed"))
                            (Throw (failure "no keyring")) (Normal true)
                            (Normal tt) (Normal "private-key") (Normal tt) (Normal tt)
                            (Normal tt) (Normal tt))
                  direct_caller fresh_user)
                (failure "no keyring") eq_refl)).
Defined.

(** ** login: where the replies go *)

(** X3.  [login] answers on one channel only.  For the login form every
    message goes to the Auth worker of the form's own tab, the first of them
    the processing notice, sent before any collaborator is called, and
    nothing is emitted on the form's port.  For any other caller nothing is
    sent to an Auth worker, and every port message answers the request of
    the controller. *)
Theorem login_reply_routing
    (E : Env) (this : AuthController) (passphrase : string)
    (remember redirect : jsval) (u : User) :
  let t := events (login E this passphrase remember redirect) u in
  (isAuthForm (auth_worker this) = true ->
   existsb is_port_emit t = false
   /\ forallb (goes_to_tab (tab_id (auth_worker this))) t = true
   /\ hd_error t = Some (AuthWorkerEmit (Some (tab_id (auth_worker this)))
                           "passbolt.auth.login-processing" [l10n E "Logging in"]))
  /\ (isAuthForm (auth_worker this) = false ->
      existsb is_auth_worker_emit t = false
      /\ forallb (answers_request (auth_requestId this)) t = true).
Proof.
  unfold_run. split_cases; repeat split; intros; try discriminate;
    rewrite ?Z.eqb_refl, ?String.eqb_refl; reflexivity.
Qed.

Lemma login_reply_routing_witness :
  existsb is_port_emit
    (events (login all_fine login_form "correct" (JBool false) JNull) fresh_user) = false
  /\ existsb is_auth_worker_emit
       (events (login wrong_passphrase direct_caller "wrong" (JBool false) JNull) fresh_user)
     = false.
Proof.
  split.
  - apply (proj1 (login_reply_routing all_fine login_form "correct" (JBool false) JNull
                    fresh_user)); reflexivity.
  - apply (proj2 (login_reply_routing wrong_passphrase direct_caller "wrong" (JBool false)
                    JNull fresh_user)); reflexivity.
Defined.

(** X4.  [login] itself never fails, and the caller gets at most one reply:
    exactly one, unless the initialisation of the application page mod
    fails or [URL] rejects the address, in which cases the failure of
    [handleLoginSuccess], which is not awaited, is lost and the caller gets
    no reply at all. *)
Theorem login_replies_at_most_once
    (E : Env) (this : AuthController) (passphrase : string)
    (remember redirect : jsval) (u : User) :
  let t := events (login E this passphrase remember redirect) u in
  outcome (login E this passphrase remember redirect) u = Normal tt
  /\ count is_reply t = (if existsb init_failed t || existsb url_rejected t then 0 else 1).
Proof. by_cases. Qed.

(** The lost failure, run: every step succeeds, the initialisation of the
    application fails, and the caller hears nothing. *)
Example login_init_rejected :
  events (login (auth_env (Normal tt) (Normal false) (Normal false) (Normal tt)
                          (Normal "private-key") (Normal tt) (Normal tt) (Normal tt)
                          (Throw (failure "no tab")))
                direct_caller "correct" (JBool false) JNull) fresh_user
  = [ Called retrieveAndStoreCsrfToken true;
      Called (getAndDecryptPrivateKey "correct") true;
      Called (auth_login "private-key") true;
      Called startCheckAuthStatusLoop true;
      Called settings_sync true;
      Called PassboltApp_init false ].
Proof. reflexivity. Qed.

(** X5.  The failure that [login] reports is the error of the first of the
    token retrieval, the key decryption, the remote login and the loop
    start that fails, as it was thrown: in an [ERROR] on the port, or by its
    message alone in login-failed for the login form.  After such a failure
    nothing further is done: no settings synchronisation, no initialisation
    of the application, no success.  When none of the four fails no failure
    is reported, whatever happens later. *)
Theorem login_reports_first_failure
    (E : Env) (this : AuthController) (passphrase : string)
    (remember redirect : jsval) (u : User) :
  let t := events (login E this passphrase remember redirect) u in
  match login_failure E passphrase with
  | Some e =>
      filter is_reply t = [failure_notice this e]
      /\ existsb sync_called t = false
      /\ existsb init_called t = false
  | None => existsb is_failure_reply t = false
  end.
Proof.
  unfold login_failure, failure_notice. unfold_run.
  split_cases; repeat split; intros; try reflexivity; try discriminate; try congruence.
Qed.

(** ** login: the retained passphrase *)

(** X6.  The passphrase is retained before the status loop is started and
    is not withdrawn: when [remember] is truthy and the loop start fails,
    [login] reports the failure, and no success, and the [User] still holds
    the passphrase with the lifetime -1. *)
Theorem login_failed_loop_start_keeps_passphrase
    (E : Env) (this : AuthController) (passphrase : string)
    (remember redirect : jsval) (u : User) (key : privateKey) (e : jserror) :
  csrf_result E = Normal tt ->
  decryptPrivateKey_result E passphrase = Normal key ->
  login_result E key = Normal tt ->
  ToBoolean remember = true ->
  startLoop_result E = Throw e ->
  let run := login E this passphrase remember redirect in
  masterPassword (final_user run u) = Some (passphrase, (-1)%Z)
  /\ filter is_reply (events run u) = [failure_notice this e].
Proof.
  intros Hcsrf Hkey Hlogin Hremember Hloop. unfold failure_notice.
  unfold_run. rewrite Hcsrf, Hkey. cbn. rewrite Hlogin, Hremember. cbn.
  rewrite Hloop. cbn. split_cases; split; reflexivity.
Qed.

Lemma login_failed_loop_start_keeps_passphrase_witness :
  masterPassword
    (final_user (login loop_start_rejected direct_caller "correct" (JBool true) JNull)
                fresh_user) = Some ("correct", (-1)%Z).
Proof.
  exact (proj1 (login_failed_loop_start_keeps_passphrase
                  loop_start_rejected direct_caller "correct" (JBool true) JNull fresh_user
                  "private-key" (failure "The session status could not be checked")
                  eq_refl eq_refl eq_refl eq_refl eq_refl)).
Defined.

(** X7.  A passphrase that did not unlock the key, or a login that the
    server refused, or a login that got no token, retains nothing: whatever
    [remember] is, [storeMasterPasswordTemporarily] is not called and the
    retained passphrase is what it was before the call. *)
Theorem login_failure_retains_nothing
    (E : Env) (this : AuthController) (passphrase : string)
    (remember redirect : jsval) (u : User) :
  returned (csrf_result E) = false
  \/ returned (decryptPrivateKey_result E passphrase) = false
  \/ (forall key, decryptPrivateKey_result E passphrase = Normal key ->
        returned (login_result E key) = false) ->
  let run := login E this passphrase remember redirect in
  masterPassword (final_user run u) = masterPassword u
  /\ existsb store_called (events run u) = false.
Proof.
  intros H. unfold_run.
  destruct (csrf_result E) as [[]|e1] eqn:Hcsrf; cbn.
  - destruct (decryptPrivateKey_result E passphrase) as [key|e2] eqn:Hkey; cbn.
    + assert (Hlogin : returned (login_result E key) = false).
      { destruct H as [H|[H|H]]; [discriminate H | discriminate H | apply H; reflexivity]. }
      destruct (login_result E key); [discriminate Hlogin|]. cbn.
      split_cases; split; reflexivity.
    + split_cases; split; reflexivity.
  - split_cases; split; reflexivity.
Qed.

Lemma login_failure_retains_nothing_witness :
  masterPassword
    (final_user (login wrong_passphrase direct_caller "wrong" (JBool true) JNull) fresh_user)
  = None.
Proof.
  apply (login_failure_retains_nothing wrong_passphrase direct_caller "wrong" (JBool true)
           JNull fresh_user).
  right. left. reflexivity.
Defined.

(** ** syncUserSettings *)

(** X8.  From any state, [syncUserSettings] completes normally.  It leaves
    the settings synchronised when [user.settings.sync] succeeds and at
    their defaults when it fails, calling [setDefaults] in that case only;
    it emits no message and touches neither the token nor the retained
    passphrase. *)
Theorem syncUserSettings_never_fails (E : Env) (s : state) :
  let s' := snd (syncUserSettings E s) in
  fst (syncUserSettings E s) = Normal tt
  /\ settings (user s')
     = (if returned (sync_result E) then SettingsSynced else SettingsDefaults)
  /\ trace s'
     = (trace s ++ Called settings_sync (returned (sync_result E))
                   :: (if returned (sync_result E) then []
                       else [Called settings_setDefaults true]))%list
  /\ masterPassword (user s') = masterPassword (user s)
  /\ csrfToken (user s') = csrfToken (user s)
  /\ _tabId s' = _tabId s.
Proof.
  unfold_run. destruct (sync_result E) as [[]|e]; cbn; rewrite <- ?app_assoc; repeat split.
Qed.

(** ** login: what the arguments can change *)

Lemma prefix_app (s t : string) : String.prefix s (s ++ t) = true.
Proof.
  induction s as [|c s IH]; simpl.
  - destruct t; reflexivity.
  - destruct (ascii_dec c c) as [_|Hneq]; [exact IH | contradiction Hneq; reflexivity].
Qed.

Lemma prefix_refl (s : string) : String.prefix s s = true.
Proof.
  induction s as [|c s IH]; simpl; [reflexivity|].
  destruct (ascii_dec c c) as [_|Hneq]; [exact IH | contradiction Hneq; reflexivity].
Qed.

(** X9.  Whatever [redirect] is, the address given to [URL] starts with the
    trusted domain, and it is the trusted domain itself unless [redirect]
    is a string that starts with a slash: an address of another site is
    never passed on. *)
Theorem redirect_target_stays_on_trusted_domain (E : Env) (redirect : jsval) :
  String.prefix (trustedDomain E) (redirect_target E redirect) = true
  /\ (starts_with_slash (string_value redirect) = false ->
      redirect_target E redirect = trustedDomain E).
Proof.
  rewrite redirect_target_spec. unfold spec_redirect_target.
  destruct redirect as [| |b|n| |s|s|]; simpl;
    try (split; [apply prefix_refl | reflexivity]).
  - destruct (starts_with_slash s); split; intros;
      try apply prefix_app; try apply prefix_refl; try reflexivity; discriminate.
  - destruct (starts_with_slash s); split; intros;
      try apply prefix_app; try apply prefix_refl; try reflexivity; discriminate.
Qed.

Lemma redirect_target_stays_on_trusted_domain_witness :
  redirect_target all_fine (JString "https://evil.test/") = trustedDomain all_fine.
Proof.
  apply (proj2 (redirect_target_stays_on_trusted_domain all_fine
                  (JString "https://evil.test/"))).
  reflexivity.
Defined.

(** X10.  For a caller other than the login form, [redirect] is not looked
    at: no address is built, and the whole run, its log, its result and the
    [User] it leaves, is the same for any two values of [redirect]. *)
Theorem login_direct_caller_ignores_redirect
    (E : Env) (this : AuthController) (passphrase : string)
    (remember redirect redirect' : jsval) (u : User) :
  isAuthForm (auth_worker this) = false ->
  login E this passphrase remember redirect (initial u)
    = login E this passphrase remember redirect' (initial u)
  /\ existsb url_called (events (login E this passphrase remember redirect) u) = false.
Proof.
  intros Hform. unfold_run. rewrite Hform. cbn. split_cases; split; reflexivity.
Qed.

Lemma login_direct_caller_ignores_redirect_witness :
  login all_fine direct_caller "correct" (JBool false) (JString "/app/users")
        (initial fresh_user)
  = login all_fine direct_caller "correct" (JBool false) JNull (initial fresh_user).
Proof.
  exact (proj1 (login_direct_caller_ignores_redirect
                  all_fine direct_caller "correct" (JBool false)
                  (JString "/app/users") JNull fresh_user eq_refl)).
Defined.

(** X11.  [remember] decides the retention and nothing else: with the
    calls of [storeMasterPasswordTemporarily] left out, the log of [login]
    is the same for any two values of [remember], and so are the token and
    the settings that the [User] is left with. *)
Theorem login_remember_only_retains
    (E : Env) (this : AuthController) (passphrase : string)
    (remember remember' redirect : jsval) (u : User) :
  let run := login E this passphrase remember redirect in
  let run' := login E this passphrase remember' redirect in
  filter (fun e => negb (store_called e)) (events run u)
    = filter (fun e => negb (store_called e)) (events run' u)
  /\ csrfToken (final_user run u) = csrfToken (final_user run' u)
  /\ settings (final_user run u) = settings (final_user run' u).
Proof.
  unfold_run.
  destruct (ToBoolean remember), (ToBoolean remember');
    split_cases; repeat split; try congruence.
Qed.

(** ** decrypt *)

(** X12.  When every step succeeds, the plaintext that [decrypt] replies
    with is the decryption, with the key that the prompted passphrase
    unlocks, of the data of the secret that [_getSecret] found, by the
    primary lookup or by the legacy one; it is the only reply, and the
    progress dialog goes through open, step 1, step 2, close. *)
Theorem decrypt_success_plaintext
    (E : Env) (this : SecretDecryptController) (resourceId : string) (u : User)
    (passphrase : string) (found : secret) (key : privateKey) (plaintext : string) :
  outcome (_getSecret E resourceId) u = Normal (Some found) ->
  passphrase_result E = Normal passphrase ->
  open_result E = Normal tt ->
  decryptPrivateKey_result E passphrase = Normal key ->
  update1_result E = Normal tt ->
  decryptWithKey_result E (data found) key = Normal plaintext ->
  update2_result E = Normal tt ->
  close_result E = Normal tt ->
  let t := events (decrypt E this resourceId) u in
  filter is_reply t = [PortEmit (sd_requestId this) SUCCESS (Message plaintext)]
  /\ filter progress_event t
     = [ Called (progressController_open "Decrypting..." 2 "Decrypting private key") true;
         Called (progressController_update 1 "Decrypting secret") true;
         Called (progressController_update 2 "Complete") true;
         Called progressController_close true ]
  /\ outcome (decrypt E this resourceId) u = Normal tt.
Proof.
  intros Hfound Hprompt Hopen Hkey Hupdate1 Hplain Hupdate2 Hclose.
  rewrite _getSecret_outcome in Hfound. unfold_run.
  destruct (findByResourceId_result E resourceId) as [primary|e1]; cbn.
  - injection Hfound as ->.
    destruct (lookup_delay E) as [|[|n]]; cbn;
      repeat (progress (rewrite ?Hprompt, ?Hopen, ?Hkey, ?Hupdate1, ?Hplain, ?Hupdate2,
                          ?Hclose; cbn));
      repeat split.
  - destruct (findOne_result E resourceId) as [legacy|e2]; cbn; [|discriminate Hfound].
    destruct (secrets legacy) as [|first rest]; [discriminate Hfound|].
    injection Hfound as ->. cbn.
    destruct (lookup_delay E) as [|[|n]]; cbn;
      repeat (progress (rewrite ?Hprompt, ?Hopen, ?Hkey, ?Hupdate1, ?Hplain, ?Hupdate2,
                          ?Hclose; cbn));
      repeat split.
Qed.

Lemma decrypt_success_plaintext_witness :
  filter is_reply (events (decrypt old_server decrypt_caller "res-123") fresh_user)
  = [PortEmit "req-2" SUCCESS (Message "plaintext")].
Proof.
  exact (proj1 (decrypt_success_plaintext
                  old_server decrypt_caller "res-123" fresh_user
                  "correct" (mkSecret "legacy-ciphertext") "private-key" "plaintext"
                  eq_refl eq_refl eq_refl eq_refl eq_refl eq_refl eq_refl eq_refl)).
Defined.

(** X13.  When the primary lookup fails and the resource of the legacy
    lookup carries no secret, [_getSecret] answers undefined without
    failing, and [decrypt] notices only when it reads the data: the private
    key has been decrypted by then, the secret decryption is never called,
    the reply is one [ERROR] carrying a [TypeError], and the dialog is
    closed once. *)
Theorem decrypt_resource_without_secret
    (E : Env) (this : SecretDecryptController) (resourceId : string) (u : User)
    (passphrase : string) (key : privateKey) (legacy : resource) :
  returned (findByResourceId_result E resourceId) = false ->
  findOne_result E resourceId = Normal legacy ->
  secrets legacy = [] ->
  passphrase_result E = Normal passphrase ->
  open_result E = Normal tt ->
  decryptPrivateKey_result E passphrase = Normal key ->
  update1_result E = Normal tt ->
  let t := events (decrypt E this resourceId) u in
  outcome (_getSecret E resourceId) u = Normal None
  /\ (exists message,
        filter is_reply t
        = [PortEmit (sd_requestId this) ERROR (EmitableError (mkError TypeError message))])
  /\ existsb key_decrypted t = true
  /\ existsb secret_decryption_called t = false
  /\ count progress_closed t = 1.
Proof.
  intros Hprimary Hlegacy Hnone Hprompt Hopen Hkey Hupdate1.
  rewrite _getSecret_outcome. unfold_run.
  destruct (findByResourceId_result E resourceId) as [primary|e1]; [discriminate Hprimary|].
  cbn. rewrite Hlegacy. cbn. rewrite Hnone. cbn.
  destruct (lookup_delay E) as [|[|n]]; cbn;
    repeat (progress (rewrite ?Hprompt, ?Hopen, ?Hkey, ?Hupdate1; cbn));
    split_cases; repeat split; eexists; reflexivity.
Qed.

Lemma decrypt_resource_without_secret_witness :
  existsb secret_decryption_called
    (events (decrypt (decrypt_env (Throw (failure "Not found")) (Normal (mkResource []))
                                  (Normal "correct") (Normal "private-key")
                                  (Normal "plaintext") (Normal tt) (Normal tt))
                     decrypt_caller "res-123") fresh_user) = false.
Proof.
  exact (proj1 (proj2 (proj2 (proj2 (decrypt_resource_without_secret
           (decrypt_env (Throw (failure "Not found")) (Normal (mkResource []))
                        (Normal "correct") (Normal "private-key")
                        (Normal "plaintext") (Normal tt) (Normal tt))
           decrypt_caller "res-123" fresh_user "correct" "private-key" (mkResource [])
           eq_refl eq_refl eq_refl eq_refl eq_refl eq_refl eq_refl))))).
Defined.

(** X14.  When both lookups fail, the error that [decrypt] reports is the
    one of the legacy lookup; the error of the primary lookup is dropped.
    The failure is met at the [await] of the lookup, after the dialog was
    opened: the private key is not decrypted, and the dialog is closed
    once. *)
Theorem decrypt_both_lookups_fail
    (E : Env) (this : SecretDecryptController) (resourceId : string) (u : User)
    (passphrase : string) (e1 e2 : jserror) :
  findByResourceId_result E resourceId = Throw e1 ->
  findOne_result E resourceId = Throw e2 ->
  passphrase_result E = Normal passphrase ->
  open_result E = Normal tt ->
  let t := events (decrypt E this resourceId) u in
  filter is_reply t = [PortEmit (sd_requestId this) ERROR (EmitableError e2)]
  /\ existsb key_decryption_called t = false
  /\ in_order [progress_opened; is_failure_reply; progress_closed] t = true
  /\ count progress_closed t = 1.
Proof.
  intros Hprimary Hlegacy Hprompt Hopen.
  unfold_run. rewrite Hprimary. cbn. rewrite Hlegacy. cbn.
  destruct (lookup_delay E) as [|[|n]]; cbn;
    repeat (progress (rewrite ?Hprompt, ?Hopen; cbn));
    split_cases; repeat split.
Qed.

Lemma decrypt_both_lookups_fail_witness :
  filter is_reply
    (events (decrypt (decrypt_env (Throw (failure "Not found"))
                                  (Throw (failure "Forbidden"))
                                  (Normal "correct") (Normal "private-key")
                                  (Normal "plaintext") (Normal tt) (Normal tt))
                     decrypt_caller "res-123") fresh_user)
  = [PortEmit "req-2" ERROR (EmitableError (failure "Forbidden"))].
Proof.
  exact (proj1 (decrypt_both_lookups_fail
           (decrypt_env (Throw (failure "Not found")) (Throw (failure "Forbidden"))
                        (Normal "correct") (Normal "private-key")
                        (Normal "plaintext") (Normal tt) (Normal tt))
           decrypt_caller "res-123" fresh_user "correct"
           (failure "Not found") (failure "Forbidden")
           eq_refl eq_refl eq_refl eq_refl)).
Defined.

(** X15.  [decrypt] always answers: it emits one reply on every path but
    one, the path on which the close that follows [SUCCESS] fails, where an
    [ERROR] follows the [SUCCESS].  It never emits a [SUCCESS] after an
    [ERROR].  [decrypt] itself fails only with the error of the close in
    the catch block. *)
Theorem decrypt_always_replies
    (E : Env) (this : SecretDecryptController) (resourceId : string) (u : User) :
  let t := events (decrypt E this resourceId) u in
  count is_reply t
    = (if existsb is_success_reply t && negb (returned (close_result E)) then 2 else 1)
  /\ in_order [is_failure_reply; is_success_reply] t = false
  /\ (forall e, outcome (decrypt E this resourceId) u = Throw e ->
        close_catch_result E = Throw e /\ existsb is_failure_reply t = true).
Proof. by_cases. Qed.

Lemma decrypt_always_replies_witness :
  close_catch_result
    (decrypt_env (Normal (mkSecret "ciphertext")) (Normal (mkResource []))
                 (Normal "correct") (Throw (failure "This is not a valid passphrase"))
                 (Normal "plaintext") (Normal tt) (Throw (failure "No progress dialog")))
  = Throw (failure "No progress dialog").
Proof.
  exact (proj1 (proj2 (proj2 (decrypt_always_replies
           (decrypt_env (Normal (mkSecret "ciphertext")) (Normal (mkResource []))
                        (Normal "correct") (Throw (failure "This is not a valid passphrase"))
                        (Normal "plaintext") (Normal tt) (Throw (failure "No progress dialog")))
           decrypt_caller "res-123" fresh_user))
         (failure "No progress dialog") eq_refl)).
Defined.

(** X16.  The key that [decrypt] unlocks is unlocked with the passphrase
    that the prompt returned, after the dialog was opened and the lookup
    awaited; without a passphrase, or when the opening or the lookup fails,
    no key decryption is attempted. *)
Theorem decrypt_unlocks_with_prompted_passphrase
    (E : Env) (this : SecretDecryptController) (resourceId : string) (u : User) :
  let t := events (decrypt E this resourceId) u in
  filter key_decryption_called t
  = match passphrase_result E, open_result E, outcome (_getSecret E resourceId) u with
    | Normal passphrase, Normal _, Normal _ =>
        [Called (getAndDecryptPrivateKey passphrase)
                (returned (decryptPrivateKey_result E passphrase))]
    | _, _, _ => []
    end.
Proof.
  rewrite _getSecret_outcome. by_cases.
Qed.

(** ** The debug page mod *)

Lemma Debug_alive_app (t t' : list Debug.event) :
  Debug.alive (t ++ t') = fold_left Debug.alive_step t' (Debug.alive t).
Proof. unfold Debug.alive. apply fold_left_app. Qed.

(** One call: when the page mods alive are the one that [Debug._pageMod]
    holds, if it holds one, the call leaves alive the page mod it creates
    and no other. *)
Lemma Debug_init_step (getURL : string -> string) (s : Debug.state) :
  Debug.alive (Debug.trace s)
    = match Debug._pageMod s with Some h => [h] | None => [] end ->
  Debug.alive (Debug.trace (Debug.init getURL s)) = [Debug.created s].
Proof.
  intros Hinv. unfold Debug.init. cbn [Debug.trace].
  rewrite Debug_alive_app. destruct (Debug._pageMod s) as [h|].
  - rewrite !Debug_alive_app, Hinv. cbn. rewrite Nat.eqb_refl. reflexivity.
  - rewrite Debug_alive_app, Hinv. reflexivity.
Qed.

(** What one call adds to the log. *)
Lemma Debug_init_trace (getURL : string -> string) (s : Debug.state) :
  Debug.trace (Debug.init getURL s)
  = (Debug.trace s
     ++ [ Debug.Log_write "warning" "Warning: plugin debug mode is on!";
          Debug.Log_write "warning" (getURL "data/config-debug.html") ]
     ++ match Debug._pageMod s with Some h => [Debug.destroy h] | None => [] end
     ++ [ Debug.PageMod (Debug.created s)
            {| Debug.name := "debug";
               Debug.include := getURL "data/config-debug.html";
               Debug.contentScriptWhen := "end";
               Debug.contentScriptFile := [] |} ])%list.
Proof.
  unfold Debug.init. cbn [Debug.trace].
  destruct (Debug._pageMod s); rewrite <- ?app_assoc; reflexivity.
Qed.

(** One call keeps the log such that at no point of it two page mods are
    alive. *)
Lemma Debug_init_step_prefixes (getURL : string -> string) (s : Debug.state) :
  Debug.alive (Debug.trace s)
    = match Debug._pageMod s with Some h => [h] | None => [] end ->
  (forall k, length (Debug.alive (firstn k (Debug.trace s))) <= 1) ->
  forall k, length (Debug.alive (firstn k (Debug.trace (Debug.init getURL s)))) <= 1.
Proof.
  intros Hinv Hprefixes k. rewrite Debug_init_trace, firstn_app.
  destruct (Nat.le_gt_cases k (length (Debug.trace s))) as [Hle|Hgt].
  - replace (k - length (Debug.trace s)) with 0 by lia.
    cbn [firstn]. rewrite app_nil_r. apply Hprefixes.
  - rewrite firstn_all2 by lia. rewrite Debug_alive_app, Hinv.
    destruct (Debug._pageMod s) as [h|];
      destruct (k - length (Debug.trace s)) as [|[|[|[|m]]]]; cbn;
      rewrite ?Nat.eqb_refl; cbn; rewrite ?firstn_nil; cbn; lia.
Qed.

(** X17.  However many times [Debug.init] is called, it never leaves two
    debug page mods alive, not even for a moment: at every point of the log
    at most one page mod is alive, for each call destroys the page mod of
    the call before and only then creates its own.  After [n] calls the
    only page mod alive is the last one created, which is the one that
    [Debug._pageMod] holds; every earlier one was destroyed, once, in the
    order of creation; each call writes two warnings to the log. *)
Theorem Debug_init_keeps_one_page_mod (getURL : string -> string) (n : nat) :
  let s := Debug.init_times getURL n Debug.initial in
  Debug.alive (Debug.trace s) = match n with O => [] | S k => [k] end
  /\ Debug._pageMod s = match n with O => None | S k => Some k end
  /\ Debug.created s = n
  /\ filter Debug.is_destroy (Debug.trace s) = map Debug.destroy (seq 0 (pred n))
  /\ length (filter Debug.is_warning (Debug.trace s)) = 2 * n
  /\ (forall k, length (Debug.alive (firstn k (Debug.trace s))) <= 1)
  /\ filter (fun e => negb (Debug.is_warning e)) (Debug.trace s) = Debug.lifecycle getURL n.
Proof.
  cbv zeta. induction n as [|n IH].
  - repeat split. intros k. destruct k; cbn; lia.
  - destruct IH as (Halive & Hheld & Hcreated & Hdestroyed & Hwarnings & Hprefixes & Hlife).
    cbn [Debug.init_times].
    set (s := Debug.init_times getURL n Debug.initial) in *.
    assert (Hinv : Debug.alive (Debug.trace s)
                   = match Debug._pageMod s with Some h => [h] | None => [] end).
    { rewrite Halive, Hheld. destruct n; reflexivity. }
    split; [|split; [|split; [|split; [|split; [|split]]]]].
    + rewrite Debug_init_step; [congruence | exact Hinv].
    + cbn. congruence.
    + cbn. congruence.
    + unfold Debug.init. cbn [Debug.trace]. rewrite Hheld.
      destruct n as [|k].
      * rewrite !filter_app, Hdestroyed. reflexivity.
      * rewrite !filter_app, Hdestroyed. cbn [pred].
        rewrite seq_S, map_app. cbn. rewrite ?app_nil_r. reflexivity.
    + unfold Debug.init. cbn [Debug.trace].
      destruct (Debug._pageMod s); rewrite !filter_app, !length_app, Hwarnings; cbn; lia.
    + apply Debug_init_step_prefixes; assumption.
    + rewrite Debug_init_trace, !filter_app, Hlife, Hheld, Hcreated.
      destruct n; reflexivity.
Qed.

(** Three calls, run. *)
Example Debug_init_three_times :
  map (fun e => match e with
                | Debug.PageMod h _ => Some (true, h)
                | Debug.destroy h => Some (false, h)
                | _ => None
                end)
      (filter (fun e => negb (Debug.is_warning e))
              (Debug.trace (Debug.init_times (fun s => s) 3 Debug.initial)))
  = [ Some (true, 0); Some (false, 0); Some (true, 1); Some (false, 1); Some (true, 2) ].
Proof. reflexivity. Qed.
